(** * cuBLAS Relay integration: pattern table, eligibility check, lowering

    A shallow embedding of [python/tvm/relay/op/contrib/cublas.py].

    The Python code is dynamically typed and may raise; every operation
    that can raise in the source returns a [result] here.  The Relay IR,
    the dataflow-pattern DSL, tensor expressions and the cuBLAS call
    builders are libraries the file imports: they are represented by the
    data they carry (an expression tree, a pattern tree, a tensor
    expression), exactly as far as the file looks into them. *)

From stdpp Require Import base option strings list gmap pretty.

Set Warnings "-register-all".

Open Scope string_scope.
Open Scope Z_scope.

(** ** Python: exceptions, indexing, membership *)

Module py.

Inductive exn : Set :=
| AssertionError
| AttributeError
| IndexError
| KeyError
| ValueError.

Inductive result (A : Type) : Type :=
| Ok (a : A)
| Raise (e : exn).

Arguments Ok {A} a.
Arguments Raise {A} e.

Definition bind {A B : Type} (m : result A) (k : A -> result B) : result B :=
  match m with
  | Ok a => k a
  | Raise e => Raise e
  end.

(** [assert cond]. *)
Definition assert (cond : bool) : result unit :=
  if cond then Ok tt else Raise AssertionError.

(** [l[i]] on a sequence: a negative index counts from the end, an index
    out of range raises [IndexError]. *)
Definition getitem {A : Type} (l : list A) (i : Z) : result A :=
  let n := Z.of_nat (length l) in
  let j := if i <? 0 then i + n else i in
  if (j <? 0) || (n <=? j) then Raise IndexError
  else match l !! Z.to_nat j with
       | Some x => Ok x
       | None => Raise IndexError
       end.

(** [x in l] on a list: the first element equal to [x] decides. *)
Definition contains {A : Type} (eqb : A -> A -> bool) (x : A) (l : list A) : bool :=
  existsb (eqb x) l.

(** [a or b] on conditions that may raise: [b] is evaluated only when
    [a] is false. *)
Definition or_ (a b : result bool) : result bool :=
  bind a (fun x => if x then Ok true else b).

(** Equality of a pair of strings, component by component. *)
Definition pair_eqb (p q : string * string) : bool :=
  String.eqb p.1 q.1 && String.eqb p.2 q.2.

End py.

Import py.

Notation "'let*' x ':=' m 'in' k" := (bind m (fun x => k))
  (at level 10, x name, m at level 100, k at level 200).

(** ** Relay: types, attributes, expressions *)

Module relay.

(** Checked types.  Only a [TensorType] has [shape] and [dtype]; a shape
    is a sequence of concrete dimension sizes. *)
Inductive RType : Type :=
| TensorType (shape : list Z) (dtype : string)
| TupleType (fields : list RType)
| FuncType (arg_types : list RType) (ret_type : RType).

(** Attribute values, as far as this file reads them. *)
Inductive AttrValue : Set :=
| AStr (s : string)
| ABool (b : bool)
| AInt (z : Z).

(** Expressions.  [checked_type] is [None] until type inference has
    populated it. *)
Inductive Expr : Type :=
| Var (name_hint : string) (ty : option RType)
| Constant (ty : option RType)
| Op (name : string)
| Tuple (fields : list Expr) (ty : option RType)
| Call (op : Expr) (args : list Expr) (attrs : gmap string AttrValue)
       (ty : option RType)
| Function (params : list Expr) (body : Expr) (attrs : gmap string AttrValue)
           (ty : option RType).

(** [e.checked_type]: raises when the type checker has not populated it. *)
Definition checked_type (e : Expr) : result RType :=
  let populated (ty : option RType) :=
    match ty with
    | Some t => Ok t
    | None => Raise ValueError
    end in
  match e with
  | Var _ ty => populated ty
  | Constant ty => populated ty
  | Op _ => Raise ValueError
  | Tuple _ ty => populated ty
  | Call _ _ _ ty => populated ty
  | Function _ _ _ ty => populated ty
  end.

(** [t.dtype] and [t.shape]. *)
Definition dtype (t : RType) : result string :=
  match t with
  | TensorType _ d => Ok d
  | _ => Raise AttributeError
  end.

Definition shape (t : RType) : result (list Z) :=
  match t with
  | TensorType s _ => Ok s
  | _ => Raise AttributeError
  end.

(** [e.args], an attribute of calls only. *)
Definition args (e : Expr) : result (list Expr) :=
  match e with
  | Call _ a _ _ => Ok a
  | _ => Raise AttributeError
  end.

(** [attrs[key]] and [attrs.key]. *)
Definition attr (attrs : gmap string AttrValue) (key : string) : result AttrValue :=
  match attrs !! key with
  | Some v => Ok v
  | None => Raise AttributeError
  end.

(** [e.attrs[key]] on a call. *)
Definition call_attr (e : Expr) (key : string) : result AttrValue :=
  match e with
  | Call _ _ attrs _ => attr attrs key
  | _ => Raise AttributeError
  end.

End relay.

Import relay.

(** ** The eligibility predicate *)

(** [matched.args[i].checked_type]. *)
Definition arg_type (matched : Expr) (i : Z) : result RType :=
  let* a := args matched in
  let* x := getitem a i in
  checked_type x.

(** The (input, output) data type combinations cuBLAS supports. *)
Definition supported_dtypes : list (string * string) :=
  [ ("float32", "float32");
    ("float16", "float16");
    ("float16", "float32");
    ("int8", "int32");
    ("float64", "float64");
    ("int8", "float32") ].

(** [matched.args[i].checked_type.shape[-1] % 4 != 0]. *)
Definition misaligned (matched : Expr) (i : Z) : result bool :=
  let* t := arg_type matched i in
  let* s := shape t in
  let* d := getitem s (-1) in
  Ok (negb (d `mod` 4 =? 0)).

Definition check_matmul_like (matched : Expr) : result bool :=
  let* d0 := bind (arg_type matched 0) dtype in
  let* d1 := bind (arg_type matched 1) dtype in
  if negb (String.eqb d0 d1) then Ok false else
  let* in_dtype := bind (arg_type matched 0) dtype in
  let* out_dtype := bind (checked_type matched) dtype in
  if negb (contains pair_eqb (in_dtype, out_dtype) supported_dtypes)
  then Ok false else
  if String.eqb in_dtype "int8" then
    let* bad := or_ (misaligned matched 0) (misaligned matched 1) in
    if bad then Ok false else Ok true
  else Ok true.

(** ** The pattern table *)

Module dataflow_pattern.

(** Dataflow patterns: [wildcard()], [is_op(name)] and a pattern applied
    to argument patterns. *)
Inductive Pattern : Type :=
| wildcard
| is_op (op_name : string)
| CallPattern (op : Pattern) (args : list Pattern).

End dataflow_pattern.

Import dataflow_pattern.

Definition matmul_pattern : Pattern :=
  CallPattern (is_op "nn.matmul") [wildcard; wildcard].

Definition batch_matmul_pattern : Pattern :=
  CallPattern (is_op "nn.batch_matmul") [wildcard; wildcard].

Definition dense_pattern : Pattern :=
  CallPattern (is_op "nn.dense") [wildcard; wildcard].

Definition pattern_table : list (string * Pattern * (Expr -> result bool)) :=
  [ ("cublas.matmul", matmul_pattern, check_matmul_like);
    ("cublas.batch_matmul", batch_matmul_pattern, check_matmul_like);
    ("cublas.dense", dense_pattern, check_matmul_like) ].

(** ** Tensor expressions and the cuBLAS call builders *)

Module te.

(** A tensor expression is an input placeholder or a call of one of the
    two external routines on two tensors.  The transpose flags are the
    Python values handed to the builder, whatever they are. *)
Inductive Tensor : Type :=
| placeholder (shape : list Z) (name : string) (dtype : string)
| cublas_matmul (lhs rhs : Tensor) (transa transb : AttrValue) (dtype : string)
| cublas_batch_matmul (lhs rhs : Tensor) (transa transb : AttrValue)
                      (dtype : string).

End te.

Import te.

(** ** Lowering routines and their registry *)

Definition _LowerFunc : Type := Expr -> list Tensor -> result Tensor.

(** [_lower_composite(comp_name)(f)]: [_LOWER_MAP[comp_name] = f]. *)
Definition _lower_composite (comp_name : string) (f : _LowerFunc)
    (LOWER_MAP : gmap string _LowerFunc) : gmap string _LowerFunc :=
  <[comp_name := f]> LOWER_MAP.

Definition _lower_matmul (op : Expr) (inputs : list Tensor) : result Tensor :=
  let* lhs := getitem inputs 0 in
  let* rhs := getitem inputs 1 in
  let* transa := call_attr op "transpose_a" in
  let* transb := call_attr op "transpose_b" in
  let* out_dtype := bind (checked_type op) dtype in
  Ok (cublas_matmul lhs rhs transa transb out_dtype).

Definition _lower_batch_matmul (op : Expr) (inputs : list Tensor) : result Tensor :=
  let* lhs := getitem inputs 0 in
  let* rhs := getitem inputs 1 in
  let* transa := call_attr op "transpose_a" in
  let* transb := call_attr op "transpose_b" in
  let* out_dtype := bind (checked_type op) dtype in
  Ok (cublas_batch_matmul lhs rhs transa transb out_dtype).

Definition _lower_dense (op : Expr) (inputs : list Tensor) : result Tensor :=
  let* lhs := getitem inputs 0 in
  let* rhs := getitem inputs 1 in
  let* out_dtype := bind (checked_type op) dtype in
  Ok (cublas_matmul lhs rhs (ABool false) (ABool true) out_dtype).

(** The registry once the module is loaded: the three decorators have
    run, in source order, on the empty dictionary. *)
Definition _LOWER_MAP : gmap string _LowerFunc :=
  _lower_composite "cublas.dense" _lower_dense
    (_lower_composite "cublas.batch_matmul" _lower_batch_matmul
       (_lower_composite "cublas.matmul" _lower_matmul ∅)).

(** ** The lowering dispatcher *)

(** [isinstance(e, relay.Function)] and [isinstance(e, relay.Call)]. *)
Definition is_Function (e : Expr) : bool :=
  match e with
  | Function _ _ _ _ => true
  | _ => false
  end.

Definition is_Call (e : Expr) : bool :=
  match e with
  | Call _ _ _ _ => true
  | _ => false
  end.

(** Field reads; a class without the field raises. *)
Definition body (e : Expr) : result Expr :=
  match e with
  | Function _ b _ _ => Ok b
  | _ => Raise AttributeError
  end.

Definition op (e : Expr) : result Expr :=
  match e with
  | Call o _ _ _ => Ok o
  | _ => Raise AttributeError
  end.

Definition params (e : Expr) : result (list Expr) :=
  match e with
  | Function ps _ _ _ => Ok ps
  | _ => Raise AttributeError
  end.

Definition attrs (e : Expr) : result (gmap string AttrValue) :=
  match e with
  | Function _ _ a _ => Ok a
  | Call _ _ a _ => Ok a
  | _ => Raise AttributeError
  end.

(** [str(v)]. *)
Definition str (v : AttrValue) : string :=
  match v with
  | AStr s => s
  | ABool b => if b then "True" else "False"
  | AInt z => pretty z
  end.

(** [key in d] and [d[key]] on a dictionary with string keys; a key that
    is not a string is in no such dictionary. *)
Definition dict_contains {V : Type} (d : gmap string V) (key : AttrValue) : bool :=
  match key with
  | AStr s => bool_decide (is_Some (d !! s))
  | _ => false
  end.

Definition dict_getitem {V : Type} (d : gmap string V) (key : AttrValue) : result V :=
  match key with
  | AStr s => match d !! s with
              | Some v => Ok v
              | None => Raise KeyError
              end
  | _ => Raise KeyError
  end.

(** The loop over [enumerate(comp_func.params)], from index [i] on: one
    placeholder per parameter, in parameter order. *)
Fixpoint placeholders (i : nat) (ps : list Expr) : result (list Tensor) :=
  match ps with
  | [] => Ok []
  | param :: rest =>
      let* s := bind (checked_type param) shape in
      let* d := bind (checked_type param) dtype in
      let* more := placeholders (S i) rest in
      Ok (placeholder s ("input_" +:+ pretty i) d :: more)
  end.

Module target.
Inductive Target : Set := cuda.
End target.

(** What [relay_to_runtime] has in hand when it reaches the call of the
    lowering routine (source line 153). *)
Record LoweringJob : Type := {
  job_global_name : string;
  job_target : target.Target;
  job_comp_name : AttrValue;
  job_op : Expr;
  job_inputs : list Tensor
}.

Section Dispatcher.

(** The registry as it stands when the dispatcher is called. *)
Variable LOWER_MAP : gmap string _LowerFunc.

(** The external kernel builder. *)
Context {PrimFunc RuntimeModule : Type}.
Variable create_prim_func : list Tensor -> result PrimFunc.
Variable build : PrimFunc -> target.Target -> string -> result RuntimeModule.

(** Source lines 131-151: the assertions and the placeholders. *)
Definition relay_to_runtime_checks (partition : Expr) : result LoweringJob :=
  let* _ := assert (is_Function partition) in
  let* partition_body := body partition in
  let* _ := assert (is_Call partition_body) in
  let* partition_body_op := op partition_body in
  let* _ := assert (is_Function partition_body_op) in
  let* partition_attrs := attrs partition in
  let* global_symbol := attr partition_attrs "global_symbol" in
  let global_name := str global_symbol in
  let tgt := target.cuda in
  let comp_func := partition_body_op in
  let* comp_attrs := attrs comp_func in
  let* comp_name := attr comp_attrs "Composite" in
  let* _ := assert (dict_contains LOWER_MAP comp_name) in
  let* comp_body := body comp_func in
  let* _ := assert (is_Call comp_body) in
  let* comp_params := params comp_func in
  let* inputs := placeholders 0 comp_params in
  Ok {| job_global_name := global_name; job_target := tgt;
        job_comp_name := comp_name; job_op := comp_body;
        job_inputs := inputs |}.

(** Source lines 153-155: lowering, then the kernel build. *)
Definition relay_to_runtime_lower (job : LoweringJob) : result RuntimeModule :=
  let* lower := dict_getitem LOWER_MAP (job_comp_name job) in
  let* output := lower (job_op job) (job_inputs job) in
  let* prim_func := create_prim_func (job_inputs job ++ [output]) in
  build prim_func (job_target job) (job_global_name job).

Definition relay_to_runtime (partition : Expr) : result RuntimeModule :=
  let* job := relay_to_runtime_checks partition in
  relay_to_runtime_lower job.

End Dispatcher.

(** ** The partitioning pipeline *)

Module transform.

(** The passes the file instantiates. *)
Inductive Pass : Type :=
| InferType
| MergeComposite (table : list (string * Pattern * (Expr -> result bool)))
| AnnotateTarget (targets : string)
| PartitionGraph.

End transform.

Import transform.

Section Pipeline.

Context {IRModule NDArray : Type}.

(** What running one pass on a module gives; a pass may fail. *)
Variable run_pass : Pass -> IRModule -> result IRModule.

(** Modelled from the spec: the sequential pass runner
    [tvm.transform.Sequential], which is not in this file.  Each stage
    completes before the next begins, in list order, each stage once, with
    no retries; a failing stage ends the run. *)
Definition Sequential (passes : list Pass) (mod_ : IRModule) : result IRModule :=
  foldl (fun acc p => bind acc (run_pass p)) (Ok mod_) passes.

Definition partition_for_cublas (mod_ : IRModule)
    (params : option (gmap string NDArray)) : result IRModule :=
  let seq :=
    Sequential
      [ InferType;
        MergeComposite pattern_table;
        AnnotateTarget "cublas";
        PartitionGraph;
        InferType ] in
  seq mod_.

End Pipeline.

(** ** Auxiliary definitions for the statements *)

(** The trailing-dimension test on a shape: [shape[-1] % 4 != 0]. *)
Definition trailing_misaligned (s : list Z) : result bool :=
  let* d := getitem s (-1) in
  Ok (negb (d `mod` 4 =? 0)).


(** The structural precondition in the words of the contract: the
    partition is a function whose body is a call, the call's operator is
    itself a function, that function's ["Composite"] tag is in the
    lowering registry, and that function's body is a call. *)
Definition structural_precondition {V : Type} (LOWER_MAP : gmap string V)
    (partition : Expr) : bool :=
  match partition with
  | Function _ (Call (Function _ comp_body comp_attrs _) _ _ _) _ _ =>
      match comp_attrs !! "Composite" with
      | Some comp_name => dict_contains LOWER_MAP comp_name && is_Call comp_body
      | None => false
      end
  | _ => false
  end.

(** Calls used to run the theorems on concrete inputs. *)
Definition tensor_var (name : string) (s : list Z) (d : string) : Expr :=
  Var name (Some (TensorType s d)).

Definition matmul_call (s0 : list Z) (d0 : string) (s1 : list Z) (d1 : string)
    (so : list Z) (od : string) : Expr :=
  Call (Op "nn.matmul") [tensor_var "a" s0 d0; tensor_var "b" s1 d1]
    (<["transpose_a" := ABool false]> (<["transpose_b" := ABool false]> ∅))
    (Some (TensorType so od)).

Definition dense_call (s0 : list Z) (d0 : string) (s1 : list Z) (d1 : string)
    (so : list Z) (od : string) : Expr :=
  Call (Op "nn.dense") [tensor_var "data" s0 d0; tensor_var "weight" s1 d1]
    ∅ (Some (TensorType so od)).

(** A well-formed partition around a dense composite, and a partition
    whose composite tag has no lowering routine. *)
Definition composite_function (tag : string) : Expr :=
  Function [tensor_var "p0" [8; 16] "float32"; tensor_var "p1" [32; 16] "float32"]
    (dense_call [8; 16] "float32" [32; 16] "float32" [8; 32] "float32")
    (<["Composite" := AStr tag]> ∅)
    None.

Definition partition_of (tag : string) : Expr :=
  Function [tensor_var "x" [8; 16] "float32"; tensor_var "w" [32; 16] "float32"]
    (Call (composite_function tag)
       [tensor_var "x" [8; 16] "float32"; tensor_var "w" [32; 16] "float32"]
       ∅ (Some (TensorType [8; 32] "float32")))
    (<["global_symbol" := AStr "tvmgen_default_cublas_main_0"]> ∅)
    None.

(** The kernel builder replaced by the record of what it was asked. *)
Definition recording_build (prim_func : list Tensor) (tgt : target.Target)
    (name : string) : result (list Tensor * target.Target * string) :=
  Ok (prim_func, tgt, name).

(** * Properties *)

(** ** Python indexing and membership *)

Lemma getitem_0 {A : Type} (x : A) (l : list A) : getitem (x :: l) 0 = Ok x.
Proof.
  unfold getitem. cbn [length]. change (0 <? 0) with false. cbv iota.
  replace (Z.of_nat (S (length l)) <=? 0) with false by (symmetry; apply Z.leb_gt; lia).
  reflexivity.
Qed.

Lemma getitem_1 {A : Type} (x y : A) (l : list A) : getitem (x :: y :: l) 1 = Ok y.
Proof.
  unfold getitem. cbn [length]. change (1 <? 0) with false. cbv iota.
  replace (Z.of_nat (S (S (length l))) <=? 1) with false by (symmetry; apply Z.leb_gt; lia).
  reflexivity.
Qed.

Lemma getitem_inv {A : Type} (l : list A) (i : Z) (x : A) :
  getitem l i = Ok x ->
  exists j : nat, l !! j = Some x /\
    Z.of_nat j = if i <? 0 then i + Z.of_nat (length l) else i.
Proof.
  unfold getitem.
  set (j := if i <? 0 then i + Z.of_nat (length l) else i).
  destruct ((j <? 0) || (Z.of_nat (length l) <=? j)) eqn:Hrange; [discriminate|].
  apply orb_false_iff in Hrange as [Hlo _]. apply Z.ltb_ge in Hlo.
  destruct (l !! Z.to_nat j) eqn:Hl; [|discriminate].
  intros [= ->]. exists (Z.to_nat j). split; [assumption | lia].
Qed.

Lemma getitem_0_inv {A : Type} (l : list A) (x : A) :
  getitem l 0 = Ok x -> exists rest, l = x :: rest.
Proof.
  intros H. apply getitem_inv in H as (j & Hj & Hz).
  change (0 <? 0) with false in Hz. cbv iota in Hz.
  assert (j = 0%nat) as -> by lia.
  destruct l as [|y rest]; [discriminate|]. injection Hj as ->. eauto.
Qed.

Lemma getitem_1_inv {A : Type} (l : list A) (y : A) :
  getitem l 1 = Ok y -> exists x rest, l = x :: y :: rest.
Proof.
  intros H. apply getitem_inv in H as (j & Hj & Hz).
  change (1 <? 0) with false in Hz. cbv iota in Hz.
  assert (j = 1%nat) as -> by lia.
  destruct l as [|x [|y' rest]]; try discriminate. injection Hj as ->. eauto.
Qed.

(** [l[-1]] is the last element, and raises on the empty sequence. *)
Lemma getitem_last {A : Type} (l : list A) :
  getitem l (-1) =
  match last l with
  | Some x => Ok x
  | None => Raise IndexError
  end.
Proof.
  destruct l as [|x l] using rev_ind; [reflexivity|].
  rewrite last_snoc. unfold getitem. change (-1 <? 0) with true. cbv iota.
  rewrite length_app. cbn [length].
  replace (-1 + Z.of_nat (length l + 1)) with (Z.of_nat (length l)) by lia.
  replace (Z.of_nat (length l) <? 0) with false by (symmetry; apply Z.ltb_ge; lia).
  replace (Z.of_nat (length l + 1) <=? Z.of_nat (length l)) with false
    by (symmetry; apply Z.leb_gt; lia).
  cbn [orb]. rewrite Nat2Z.id.
  rewrite lookup_app_r by lia. rewrite Nat.sub_diag. reflexivity.
Qed.

Lemma contains_pair_eqb (p : string * string) (l : list (string * string)) :
  contains pair_eqb p l = true <-> p ∈ l.
Proof.
  unfold contains. rewrite existsb_exists. split.
  - intros ((a & b) & Hin & Heq). destruct p as [c d].
    unfold pair_eqb in Heq. cbn in Heq.
    apply andb_true_iff in Heq as [H1 H2].
    apply String.eqb_eq in H1, H2. subst. by apply list_elem_of_In.
  - intros Hin. exists p. split; [by apply list_elem_of_In|].
    destruct p as [c d]. unfold pair_eqb. cbn. by rewrite !String.eqb_refl.
Qed.

Lemma mod4_eqb (d : Z) : (d `mod` 4 =? 0) = true <-> (4 | d).
Proof.
  rewrite Z.eqb_eq. apply Z.mod_divide. discriminate.
Qed.

(** ** The eligibility predicate on typed operands *)

(** Once both operands carry a tensor type, the operand reads of the
    predicate are settled and only the call's own type is left to read. *)
Lemma check_matmul_like_operands (matched : Expr) (s0 s1 : list Z) (d0 d1 : string) :
  arg_type matched 0 = Ok (TensorType s0 d0) ->
  arg_type matched 1 = Ok (TensorType s1 d1) ->
  check_matmul_like matched =
    if negb (String.eqb d0 d1) then Ok false else
    let* out_dtype := bind (checked_type matched) dtype in
    if negb (contains pair_eqb (d0, out_dtype) supported_dtypes) then Ok false else
    if String.eqb d0 "int8" then
      let* bad := or_ (trailing_misaligned s0) (trailing_misaligned s1) in
      if bad then Ok false else Ok true
    else Ok true.
Proof.
  intros H0 H1. unfold check_matmul_like, misaligned, trailing_misaligned.
  rewrite H0, H1. reflexivity.
Qed.

Lemma trailing_misaligned_last (s : list Z) (k : Z) :
  last s = Some k -> trailing_misaligned s = Ok (negb (k `mod` 4 =? 0)).
Proof.
  intros H. unfold trailing_misaligned. rewrite getitem_last, H. reflexivity.
Qed.

Lemma trailing_misaligned_nonempty (s : list Z) :
  s <> [] -> exists b, trailing_misaligned s = Ok b.
Proof.
  intros H. destruct (last s) as [k|] eqn:E.
  - eexists. by apply trailing_misaligned_last.
  - apply last_None in E. contradiction.
Qed.

(** C1: on a matched call whose two operands have the same element data
    type [d] and whose own checked type has element data type [od], the
    predicate returns true only if [(d, od)] is one of the six supported
    pairs, and it returns false for every other pair. *)
Theorem check_matmul_like_supported_pairs
    (matched : Expr) (s0 s1 so : list Z) (d od : string) :
  arg_type matched 0 = Ok (TensorType s0 d) ->
  arg_type matched 1 = Ok (TensorType s1 d) ->
  checked_type matched = Ok (TensorType so od) ->
  (check_matmul_like matched = Ok true ->
     (d, od) ∈ [ ("float32", "float32"); ("float16", "float16");
                 ("float16", "float32"); ("int8", "int32");
                 ("float64", "float64"); ("int8", "float32") ]) /\
  ((d, od) ∉ [ ("float32", "float32"); ("float16", "float16");
               ("float16", "float32"); ("int8", "int32");
               ("float64", "float64"); ("int8", "float32") ] ->
     check_matmul_like matched = Ok false).
Proof.
  intros H0 H1 Hout.
  rewrite (check_matmul_like_operands matched s0 s1 d d H0 H1).
  rewrite String.eqb_refl, Hout. cbn [negb bind dtype].
  fold supported_dtypes.
  destruct (contains pair_eqb (d, od) supported_dtypes) eqn:Hin.
  - apply contains_pair_eqb in Hin. split; [auto | contradiction].
  - split; [discriminate | reflexivity].
Qed.

Lemma check_matmul_like_supported_pairs_witness :
  (check_matmul_like (dense_call [8; 16] "float16" [32; 16] "float16" [8; 32] "float32")
     = Ok true ->
   ("float16", "float32") ∈ [ ("float32", "float32"); ("float16", "float16");
                 ("float16", "float32"); ("int8", "int32");
                 ("float64", "float64"); ("int8", "float32") ]) /\
  (("float16", "float32") ∉ [ ("float32", "float32"); ("float16", "float16");
                 ("float16", "float32"); ("int8", "int32");
                 ("float64", "float64"); ("int8", "float32") ] ->
   check_matmul_like (dense_call [8; 16] "float16" [32; 16] "float16" [8; 32] "float32")
     = Ok false).
Proof.
  apply (check_matmul_like_supported_pairs
           (dense_call [8; 16] "float16" [32; 16] "float16" [8; 32] "float32")
           [8; 16] [32; 16] [8; 32] "float16" "float32"); reflexivity.
Defined.

(** The spec's example of an unsupported pair: bfloat16 inputs with a
    float32 output are rejected. *)
Example check_matmul_like_bfloat16 :
  check_matmul_like
    (matmul_call [8; 16] "bfloat16" [16; 32] "bfloat16" [8; 32] "float32") = Ok false.
Proof. reflexivity. Qed.

(** C2: on a matched call whose two operands have differing element data
    types the predicate returns false, whatever the operand shapes, the
    call's own type and the operator are. *)
Theorem check_matmul_like_mixed_inputs
    (matched : Expr) (s0 s1 : list Z) (d0 d1 : string) :
  arg_type matched 0 = Ok (TensorType s0 d0) ->
  arg_type matched 1 = Ok (TensorType s1 d1) ->
  d0 <> d1 ->
  check_matmul_like matched = Ok false.
Proof.
  intros H0 H1 Hne.
  rewrite (check_matmul_like_operands matched s0 s1 d0 d1 H0 H1).
  apply String.eqb_neq in Hne. rewrite Hne. reflexivity.
Qed.

Lemma check_matmul_like_mixed_inputs_witness :
  check_matmul_like
    (matmul_call [8; 16] "float32" [16; 32] "float16" [8; 32] "float32") = Ok false.
Proof.
  apply (check_matmul_like_mixed_inputs _ [8; 16] [16; 32] "float32" "float16");
    [reflexivity | reflexivity | discriminate].
Defined.

(** C3: on a matched call whose operands are both int8, with a supported
    (input, output) pair, the predicate returns true exactly when the
    trailing dimensions [k0] and [k1] of the two operand shapes are both
    multiples of 4, and false otherwise. *)
Theorem check_matmul_like_int8_alignment
    (matched : Expr) (s0 s1 so : list Z) (od : string) (k0 k1 : Z) :
  arg_type matched 0 = Ok (TensorType s0 "int8") ->
  arg_type matched 1 = Ok (TensorType s1 "int8") ->
  checked_type matched = Ok (TensorType so od) ->
  ("int8", od) ∈ supported_dtypes ->
  last s0 = Some k0 ->
  last s1 = Some k1 ->
  (check_matmul_like matched = Ok true <-> (4 | k0) /\ (4 | k1)) /\
  (check_matmul_like matched = Ok false <-> ~ ((4 | k0) /\ (4 | k1))).
Proof.
  intros H0 H1 Hout Hin Hk0 Hk1.
  rewrite (check_matmul_like_operands matched s0 s1 "int8" "int8" H0 H1).
  rewrite Hout. cbn [String.eqb Ascii.eqb Bool.eqb andb negb bind dtype].
  apply contains_pair_eqb in Hin. rewrite Hin. cbn [negb].
  rewrite (trailing_misaligned_last s0 k0 Hk0), (trailing_misaligned_last s1 k1 Hk1).
  match goal with
  | |- (?v = _ <-> _) /\ _ =>
      assert (v = Ok ((k0 `mod` 4 =? 0) && (k1 `mod` 4 =? 0))) as ->
        by (destruct (k0 `mod` 4 =? 0), (k1 `mod` 4 =? 0); reflexivity)
  end.
  split; split.
  - intros [= E]. apply andb_true_iff in E as [E0 E1].
    split; by apply mod4_eqb.
  - intros [D0 D1]. apply mod4_eqb in D0, D1. by rewrite D0, D1.
  - intros [= E] [D0 D1]. apply mod4_eqb in D0, D1.
    rewrite D0, D1 in E. discriminate.
  - intros N. f_equal. apply not_true_is_false. intros E. apply N.
    apply andb_true_iff in E as [E0 E1]. split; by apply mod4_eqb.
Qed.

Lemma check_matmul_like_int8_alignment_witness :
  (check_matmul_like (matmul_call [4; 8] "int8" [8; 8] "int8" [4; 8] "int32") = Ok true
     <-> (4 | 8) /\ (4 | 8)) /\
  (check_matmul_like (matmul_call [4; 8] "int8" [8; 8] "int8" [4; 8] "int32") = Ok false
     <-> ~ ((4 | 8) /\ (4 | 8))).
Proof.
  apply (check_matmul_like_int8_alignment _ [4; 8] [8; 8] [4; 8] "int32" 8 8);
    try reflexivity.
  apply contains_pair_eqb. reflexivity.
Defined.

(** The spec's two int8 examples: trailing dimension 5 is rejected,
    trailing dimension 8 on both operands is accepted. *)
Example check_matmul_like_int8_trailing_5 :
  check_matmul_like (matmul_call [4; 5] "int8" [5; 6] "int8" [4; 6] "int32") = Ok false.
Proof. reflexivity. Qed.

Example check_matmul_like_int8_trailing_8 :
  check_matmul_like (matmul_call [4; 8] "int8" [8; 8] "int8" [4; 8] "int32") = Ok true.
Proof. reflexivity. Qed.

Lemma trailing_misaligned_unfold (s : list Z) :
  trailing_misaligned s =
  match last s with
  | Some k => Ok (negb (k `mod` 4 =? 0))
  | None => Raise IndexError
  end.
Proof.
  unfold trailing_misaligned. rewrite getitem_last.
  destruct (last s); reflexivity.
Qed.

(** The int8 branch, by what it reads: the first trailing dimension, and
    the second one only when the first is aligned. *)
Lemma int8_branch_unfold (s0 s1 : list Z) :
  (let* bad := or_ (trailing_misaligned s0) (trailing_misaligned s1) in
   if bad then Ok false else Ok true) =
  match last s0 with
  | None => Raise IndexError
  | Some k0 =>
      if k0 `mod` 4 =? 0
      then match last s1 with
           | None => Raise IndexError
           | Some k1 => Ok (k1 `mod` 4 =? 0)
           end
      else Ok false
  end.
Proof.
  rewrite !trailing_misaligned_unfold.
  destruct (last s0) as [k0|]; [|reflexivity]. cbn.
  destruct (k0 `mod` 4 =? 0); [|reflexivity]. cbn.
  destruct (last s1) as [k1|]; [|reflexivity]. cbn.
  destruct (k1 `mod` 4 =? 0); reflexivity.
Qed.

Lemma check_matmul_like_typed (matched : Expr) (s0 s1 so : list Z) (d0 d1 od : string) :
  arg_type matched 0 = Ok (TensorType s0 d0) ->
  arg_type matched 1 = Ok (TensorType s1 d1) ->
  checked_type matched = Ok (TensorType so od) ->
  check_matmul_like matched =
    if negb (String.eqb d0 d1) then Ok false else
    if negb (contains pair_eqb (d0, od) supported_dtypes) then Ok false else
    if String.eqb d0 "int8" then
      match last s0 with
      | None => Raise IndexError
      | Some k0 =>
          if k0 `mod` 4 =? 0
          then match last s1 with
               | None => Raise IndexError
               | Some k1 => Ok (k1 `mod` 4 =? 0)
               end
          else Ok false
      end
    else Ok true.
Proof.
  intros H0 H1 Hout.
  rewrite (check_matmul_like_operands matched s0 s1 d0 d1 H0 H1), Hout.
  cbn [bind dtype]. rewrite int8_branch_unfold. reflexivity.
Qed.





(** Rank-0 operands next to the raising case: an int8 operand beside a
    float32 one, a second operand behind a misaligned first one, and the
    unsupported (int8, int8) pair are all rejected with [False], not with
    an error. *)
Example check_matmul_like_rank0_rejected :
  check_matmul_like (matmul_call [4; 8] "int8" [] "float32" [4] "int32") = Ok false /\
  check_matmul_like (matmul_call [4; 5] "int8" [] "int8" [4] "int32") = Ok false /\
  check_matmul_like (matmul_call [] "int8" [] "int8" [] "int8") = Ok false.
Proof. repeat split. Qed.

(** C10: the verdict is a function of the two operands' checked types and
    of the call's checked output data type alone.  Two calls that agree
    on these get the same verdict from the predicate of any two entries
    of the pattern table, whatever operator and attributes they carry. *)
Theorem check_matmul_like_metadata_only (m1 m2 : Expr) :
  arg_type m1 0 = arg_type m2 0 ->
  arg_type m1 1 = arg_type m2 1 ->
  bind (checked_type m1) dtype = bind (checked_type m2) dtype ->
  check_matmul_like m1 = check_matmul_like m2 /\
  forall p1 p2, p1 ∈ pattern_table -> p2 ∈ pattern_table -> p1.2 m1 = p2.2 m2.
Proof.
  intros H0 H1 Hout.
  assert (Heq : check_matmul_like m1 = check_matmul_like m2).
  { unfold check_matmul_like, misaligned. rewrite H0, H1, Hout. reflexivity. }
  split; [exact Heq|].
  intros p1 p2 Hp1 Hp2. unfold pattern_table in Hp1, Hp2.
  repeat (apply elem_of_cons in Hp1 as [-> | Hp1]);
    try (by apply elem_of_nil in Hp1);
    repeat (apply elem_of_cons in Hp2 as [-> | Hp2]);
    try (by apply elem_of_nil in Hp2); exact Heq.
Qed.

Lemma check_matmul_like_metadata_only_witness :
  check_matmul_like (matmul_call [4; 8] "int8" [8; 8] "int8" [4; 8] "int32") =
  check_matmul_like (dense_call [4; 8] "int8" [8; 8] "int8" [4; 8] "int32") /\
  forall p1 p2, p1 ∈ pattern_table -> p2 ∈ pattern_table ->
    p1.2 (matmul_call [4; 8] "int8" [8; 8] "int8" [4; 8] "int32") =
    p2.2 (dense_call [4; 8] "int8" [8; 8] "int8" [4; 8] "int32").
Proof.
  apply (check_matmul_like_metadata_only
           (matmul_call [4; 8] "int8" [8; 8] "int8" [4; 8] "int32")
           (dense_call [4; 8] "int8" [8; 8] "int8" [4; 8] "int32")); reflexivity.
Defined.

(** ** The pattern table *)

(** C8: the pattern table has exactly three entries, for matmul,
    batch_matmul and dense in that order; each template is one call of
    the operator on two wildcards, and each entry carries
    [check_matmul_like]. *)
Theorem pattern_table_entries :
  pattern_table =
    [ ("cublas.matmul",
       CallPattern (is_op "nn.matmul") [wildcard; wildcard], check_matmul_like);
      ("cublas.batch_matmul",
       CallPattern (is_op "nn.batch_matmul") [wildcard; wildcard], check_matmul_like);
      ("cublas.dense",
       CallPattern (is_op "nn.dense") [wildcard; wildcard], check_matmul_like) ] /\
  length pattern_table = 3%nat /\
  Forall (fun entry => entry.2 = check_matmul_like) pattern_table.
Proof.
  split; [reflexivity|]. split; [reflexivity|].
  unfold pattern_table. repeat constructor.
Qed.

(** ** Lowering routines *)

Lemma first_two_inputs {A : Type} (inputs : list A) (lhs rhs : A) :
  getitem inputs 0 = Ok lhs -> getitem inputs 1 = Ok rhs ->
  exists rest, inputs = lhs :: rhs :: rest.
Proof.
  intros H0 H1. apply getitem_0_inv in H0 as [tl ->].
  apply getitem_1_inv in H1 as (x & rest & E). injection E as -> ->. eauto.
Qed.

Lemma checked_dtype_inv (e : Expr) (d : string) :
  bind (checked_type e) dtype = Ok d ->
  exists s, checked_type e = Ok (TensorType s d).
Proof.
  destruct (checked_type e) as [[s d'| |]|]; cbn; try discriminate.
  intros [= ->]. eauto.
Qed.

(** C4: the dense lowering routine returns exactly when it has two
    inputs and the call has a tensor checked type, and what it returns is
    the external matmul on the first two inputs with [transa = False],
    [transb = True] and the call's checked output data type; the call's
    attributes play no part. *)
Theorem lower_dense_emits (op_ : Expr) (inputs : list Tensor) (out : Tensor) :
  _lower_dense op_ inputs = Ok out <->
  exists lhs rhs rest s d,
    inputs = lhs :: rhs :: rest /\
    checked_type op_ = Ok (TensorType s d) /\
    out = cublas_matmul lhs rhs (ABool false) (ABool true) d.
Proof.
  unfold _lower_dense. split.
  - destruct (getitem inputs 0) as [lhs|] eqn:H0; [|discriminate].
    destruct (getitem inputs 1) as [rhs|] eqn:H1; [|discriminate].
    cbn [bind].
    destruct (bind (checked_type op_) dtype) as [d|] eqn:Hd; [|discriminate].
    intros [= <-].
    destruct (first_two_inputs inputs lhs rhs H0 H1) as [rest ->].
    destruct (checked_dtype_inv op_ d Hd) as [s Hs].
    by exists lhs, rhs, rest, s, d.
  - intros (lhs & rhs & rest & s & d & -> & Hs & ->).
    rewrite getitem_0, getitem_1, Hs. reflexivity.
Qed.

(** On a dense call that carries transpose attributes of its own, the
    emitted flags are still [False] and [True]. *)
Example lower_dense_ignores_attrs :
  _lower_dense
    (Call (Op "nn.dense") [tensor_var "data" [8; 16] "float32";
                           tensor_var "weight" [32; 16] "float32"]
       (<["transpose_a" := ABool true]> (<["transpose_b" := ABool false]> ∅))
       (Some (TensorType [8; 32] "float32")))
    [placeholder [8; 16] "input_0" "float32"; placeholder [32; 16] "input_1" "float32"]
  = Ok (cublas_matmul (placeholder [8; 16] "input_0" "float32")
          (placeholder [32; 16] "input_1" "float32")
          (ABool false) (ABool true) "float32").
Proof. reflexivity. Qed.

(** C5: the matmul and batch_matmul lowering routines return exactly when
    they have two inputs, the call has both transpose attributes and a
    tensor checked type; what they return is the external routine on the
    first two inputs, with [transa] and [transb] the call's
    [transpose_a] and [transpose_b] attributes and the call's checked
    output data type. *)
Theorem lower_matmul_emits (op_ : Expr) (inputs : list Tensor) (out : Tensor) :
  (_lower_matmul op_ inputs = Ok out <->
   exists lhs rhs rest ta tb s d,
     inputs = lhs :: rhs :: rest /\
     call_attr op_ "transpose_a" = Ok ta /\
     call_attr op_ "transpose_b" = Ok tb /\
     checked_type op_ = Ok (TensorType s d) /\
     out = cublas_matmul lhs rhs ta tb d) /\
  (_lower_batch_matmul op_ inputs = Ok out <->
   exists lhs rhs rest ta tb s d,
     inputs = lhs :: rhs :: rest /\
     call_attr op_ "transpose_a" = Ok ta /\
     call_attr op_ "transpose_b" = Ok tb /\
     checked_type op_ = Ok (TensorType s d) /\
     out = cublas_batch_matmul lhs rhs ta tb d).
Proof.
  unfold _lower_matmul, _lower_batch_matmul. split; split.
  1, 3:
    destruct (getitem inputs 0) as [lhs|] eqn:H0; [|discriminate];
    destruct (getitem inputs 1) as [rhs|] eqn:H1; [|discriminate];
    cbn [bind];
    destruct (call_attr op_ "transpose_a") as [ta|] eqn:Ha; [|discriminate];
    destruct (call_attr op_ "transpose_b") as [tb|] eqn:Hb; [|discriminate];
    cbn [bind];
    destruct (bind (checked_type op_) dtype) as [d|] eqn:Hd; [|discriminate];
    intros [= <-];
    destruct (first_two_inputs inputs lhs rhs H0 H1) as [rest ->];
    destruct (checked_dtype_inv op_ d Hd) as [s Hs];
    by exists lhs, rhs, rest, ta, tb, s, d.
  all: intros (lhs & rhs & rest & ta & tb & s & d & -> & Ha & Hb & Hs & ->);
    rewrite getitem_0, getitem_1, Ha, Hb, Hs; reflexivity.
Qed.

Example lower_matmul_propagates :
  _lower_matmul
    (Call (Op "nn.matmul") [tensor_var "a" [16; 8] "float16";
                            tensor_var "b" [16; 32] "float16"]
       (<["transpose_a" := ABool true]> (<["transpose_b" := ABool false]> ∅))
       (Some (TensorType [8; 32] "float32")))
    [placeholder [16; 8] "input_0" "float16"; placeholder [16; 32] "input_1" "float16"]
  = Ok (cublas_matmul (placeholder [16; 8] "input_0" "float16")
          (placeholder [16; 32] "input_1" "float16")
          (ABool true) (ABool false) "float32").
Proof. vm_compute. reflexivity. Qed.

(** ** The dispatcher's structural contract *)

Section DispatcherContract.

Variable LOWER_MAP : gmap string _LowerFunc.
Context {PrimFunc RuntimeModule : Type}.
Variable create_prim_func : list Tensor -> result PrimFunc.
Variable build : PrimFunc -> target.Target -> string -> result RuntimeModule.

Lemma relay_to_runtime_checks_sound (partition : Expr) (job : LoweringJob) :
  relay_to_runtime_checks LOWER_MAP partition = Ok job ->
  structural_precondition LOWER_MAP partition = true.
Proof.
  unfold relay_to_runtime_checks.
  destruct partition as [| | | | |ps b pattrs pty]; try discriminate.
  destruct b as [| | | |o cargs cattrs cty|]; try discriminate.
  destruct o as [| | | | |cps cb comp_attrs fty]; try discriminate.
  cbn [assert is_Function is_Call body op attrs bind structural_precondition].
  destruct (attr pattrs "global_symbol"); [|discriminate]. cbn [bind].
  unfold attr at 1. destruct (comp_attrs !! "Composite") as [comp_name|];
    [|discriminate]. cbn [bind].
  destruct (dict_contains LOWER_MAP comp_name); [|discriminate].
  cbn [assert bind].
  destruct (is_Call cb); [reflexivity | discriminate].
Qed.

Lemma relay_to_runtime_reaches_lowering (partition : Expr) (m : RuntimeModule) :
  relay_to_runtime LOWER_MAP create_prim_func build partition = Ok m ->
  exists job, relay_to_runtime_checks LOWER_MAP partition = Ok job.
Proof.
  unfold relay_to_runtime.
  destruct (relay_to_runtime_checks LOWER_MAP partition) as [job|];
    [eauto | discriminate].
Qed.

(** C6: a partition that violates the structural precondition makes
    [relay_to_runtime] raise before it reaches the lowering routine, so
    no module is produced; the lowering routine is reached, and a module
    returned, only for partitions that satisfy the precondition. *)
Theorem relay_to_runtime_structural_contract (partition : Expr) :
  (structural_precondition LOWER_MAP partition = false ->
     (exists e, relay_to_runtime_checks LOWER_MAP partition = Raise e) /\
     (exists e, relay_to_runtime LOWER_MAP create_prim_func build partition = Raise e)) /\
  (forall job, relay_to_runtime_checks LOWER_MAP partition = Ok job ->
     structural_precondition LOWER_MAP partition = true) /\
  (forall m, relay_to_runtime LOWER_MAP create_prim_func build partition = Ok m ->
     structural_precondition LOWER_MAP partition = true).
Proof.
  split; [|split].
  - intros Hbad.
    assert (Hchecks : exists e, relay_to_runtime_checks LOWER_MAP partition = Raise e).
    { destruct (relay_to_runtime_checks LOWER_MAP partition) as [job|e] eqn:E;
        [|eauto].
      apply relay_to_runtime_checks_sound in E. congruence. }
    split; [exact Hchecks|].
    destruct Hchecks as [e He]. exists e.
    unfold relay_to_runtime. rewrite He. reflexivity.
  - apply relay_to_runtime_checks_sound.
  - intros m Hm. apply relay_to_runtime_reaches_lowering in Hm as [job Hjob].
    by apply relay_to_runtime_checks_sound in Hjob.
Qed.

End DispatcherContract.

Example relay_to_runtime_dense :
  relay_to_runtime _LOWER_MAP Ok recording_build (partition_of "cublas.dense") =
  Ok ([ placeholder [8; 16] "input_0" "float32";
        placeholder [32; 16] "input_1" "float32";
        cublas_matmul (placeholder [8; 16] "input_0" "float32")
          (placeholder [32; 16] "input_1" "float32")
          (ABool false) (ABool true) "float32" ],
      target.cuda, "tvmgen_default_cublas_main_0").
Proof. vm_compute. reflexivity. Qed.

Lemma relay_to_runtime_structural_contract_witness :
  ((exists e, relay_to_runtime_checks _LOWER_MAP (partition_of "cublas.conv2d") = Raise e) /\
   (exists e, relay_to_runtime _LOWER_MAP Ok recording_build
                (partition_of "cublas.conv2d") = Raise e)) /\
  structural_precondition _LOWER_MAP (partition_of "cublas.dense") = true.
Proof.
  split.
  - apply (proj1 (relay_to_runtime_structural_contract _LOWER_MAP Ok recording_build
                    (partition_of "cublas.conv2d"))).
    vm_compute. reflexivity.
  - apply (proj1 (proj2 (relay_to_runtime_structural_contract _LOWER_MAP Ok
                           recording_build (partition_of "cublas.dense")))
             {| job_global_name := "tvmgen_default_cublas_main_0";
                job_target := target.cuda;
                job_comp_name := AStr "cublas.dense";
                job_op := dense_call [8; 16] "float32" [32; 16] "float32"
                            [8; 32] "float32";
                job_inputs := [ placeholder [8; 16] "input_0" "float32";
                                placeholder [32; 16] "input_1" "float32" ] |}).
    vm_compute. reflexivity.
Defined.

(** ** The partitioning pipeline *)

(** C7: [partition_for_cublas] runs type inference, merge-composite with
    the cuBLAS pattern table, annotate-target "cublas", graph
    partitioning and type inference again, each on the module the stage
    before it produced, and returns what the last stage returns; the
    [params] argument plays no part. *)
Theorem partition_for_cublas_pipeline {IRModule NDArray : Type}
    (run_pass : Pass -> IRModule -> result IRModule)
    (mod_ : IRModule) (params : option (gmap string NDArray)) :
  partition_for_cublas run_pass mod_ params =
    let* typed := run_pass InferType mod_ in
    let* merged := run_pass (MergeComposite pattern_table) typed in
    let* annotated := run_pass (AnnotateTarget "cublas") merged in
    let* partitioned := run_pass PartitionGraph annotated in
    run_pass InferType partitioned.
Proof.
  unfold partition_for_cublas, Sequential. cbn [foldl bind].
  destruct (run_pass InferType mod_) as [typed|]; [|reflexivity]. cbn [bind].
  destruct (run_pass (MergeComposite pattern_table) typed) as [merged|];
    [|reflexivity]. cbn [bind].
  destruct (run_pass (AnnotateTarget "cublas") merged) as [annotated|];
    [|reflexivity]. cbn [bind].
  destruct (run_pass PartitionGraph annotated); reflexivity.
Qed.

(** With each pass replaced by a recorder that appends itself to a log,
    one invocation logs the five passes in order, each once. *)
Example partition_for_cublas_trace :
  partition_for_cublas (NDArray := unit) (fun p log => Ok (app log [p])) [] None =
  Ok [ InferType; MergeComposite pattern_table; AnnotateTarget "cublas";
       PartitionGraph; InferType ].
Proof. reflexivity. Qed.

(** * Further properties of the eligibility predicate *)

(** The predicate accepts a typed call exactly when the operand data
    types are equal, the (input, output) pair is supported, and, for int8
    operands, both shapes have a trailing dimension that is a multiple
    of 4. *)
Theorem check_matmul_like_accepts_iff
    (matched : Expr) (s0 s1 so : list Z) (d0 d1 od : string) :
  arg_type matched 0 = Ok (TensorType s0 d0) ->
  arg_type matched 1 = Ok (TensorType s1 d1) ->
  checked_type matched = Ok (TensorType so od) ->
  (check_matmul_like matched = Ok true <->
   d0 = d1 /\ (d0, od) ∈ supported_dtypes /\
   (d0 = "int8" ->
    exists k0 k1, last s0 = Some k0 /\ last s1 = Some k1 /\ (4 | k0) /\ (4 | k1))).
Proof.
  intros H0 H1 Hout.
  rewrite (check_matmul_like_typed matched s0 s1 so d0 d1 od H0 H1 Hout).
  destruct (String.eqb d0 d1) eqn:Ed; cbn [negb].
  2:{ apply String.eqb_neq in Ed. split; [discriminate | tauto]. }
  apply String.eqb_eq in Ed.
  destruct (contains pair_eqb (d0, od) supported_dtypes) eqn:Hin; cbn [negb].
  2:{ split; [discriminate|]. intros (_ & Hs & _).
      apply contains_pair_eqb in Hs. congruence. }
  apply contains_pair_eqb in Hin.
  destruct (String.eqb d0 "int8") eqn:E8.
  2:{ apply String.eqb_neq in E8. split; [|reflexivity].
      intros _. repeat split; [assumption.. | contradiction]. }
  apply String.eqb_eq in E8.
  destruct (last s0) as [k0|].
  2:{ split; [discriminate|]. intros (_ & _ & Hk).
      destruct (Hk E8) as (? & ? & ? & _). discriminate. }
  destruct (k0 `mod` 4 =? 0) eqn:M0.
  2:{ split; [discriminate|]. intros (_ & _ & Hk).
      destruct (Hk E8) as (k & ? & [= <-] & _ & D0 & _).
      apply mod4_eqb in D0. congruence. }
  apply mod4_eqb in M0.
  destruct (last s1) as [k1|].
  2:{ split; [discriminate|]. intros (_ & _ & Hk).
      destruct (Hk E8) as (? & ? & _ & ? & _). discriminate. }
  split.
  - intros [= M1]. apply mod4_eqb in M1.
    repeat split; [assumption..|]. intros _. by exists k0, k1.
  - intros (_ & _ & Hk). destruct (Hk E8) as (? & ? & [= <-] & [= <-] & _ & D1).
    apply mod4_eqb in D1. by rewrite D1.
Qed.

Lemma check_matmul_like_accepts_iff_witness :
  check_matmul_like (matmul_call [4; 8] "int8" [8; 12] "int8" [4; 12] "float32") = Ok true <->
  "int8" = "int8" /\ ("int8", "float32") ∈ supported_dtypes /\
  ("int8" = "int8" ->
   exists k0 k1, last [4; 8] = Some k0 /\ last [8; 12] = Some k1 /\ (4 | k0) /\ (4 | k1)).
Proof.
  apply (check_matmul_like_accepts_iff _ [4; 8] [8; 12] [4; 12] "int8" "int8" "float32");
    reflexivity.
Defined.

(** On a typed call the only error the predicate can raise is the
    [IndexError] of [shape[-1]], and it raises it exactly for int8
    operands with a supported pair when the first shape is empty, or the
    first trailing dimension is a multiple of 4 and the second shape is
    empty. *)
Theorem check_matmul_like_raises_iff
    (matched : Expr) (s0 s1 so : list Z) (d0 d1 od : string) (e : exn) :
  arg_type matched 0 = Ok (TensorType s0 d0) ->
  arg_type matched 1 = Ok (TensorType s1 d1) ->
  checked_type matched = Ok (TensorType so od) ->
  (check_matmul_like matched = Raise e <->
   e = IndexError /\ d0 = "int8" /\ d1 = "int8" /\ ("int8", od) ∈ supported_dtypes /\
   (s0 = [] \/ exists k0, last s0 = Some k0 /\ (4 | k0) /\ s1 = [])).
Proof.
  intros H0 H1 Hout.
  rewrite (check_matmul_like_typed matched s0 s1 so d0 d1 od H0 H1 Hout).
  destruct (String.eqb d0 d1) eqn:Ed; cbn [negb].
  2:{ apply String.eqb_neq in Ed. split; [discriminate|].
      intros (_ & -> & -> & _). contradiction. }
  apply String.eqb_eq in Ed. subst d1.
  destruct (contains pair_eqb (d0, od) supported_dtypes) eqn:Hin; cbn [negb].
  2:{ split; [discriminate|]. intros (_ & -> & _ & Hs & _).
      apply contains_pair_eqb in Hs. congruence. }
  apply contains_pair_eqb in Hin.
  destruct (String.eqb d0 "int8") eqn:E8.
  2:{ apply String.eqb_neq in E8. split; [discriminate|].
      intros (_ & -> & _). contradiction. }
  apply String.eqb_eq in E8. subst d0.
  destruct (last s0) as [k0|] eqn:L0.
  2:{ apply last_None in L0. split.
      - intros [= <-]. repeat split; auto.
      - intros (-> & _). reflexivity. }
  assert (N0 : s0 <> []) by (intros ->; discriminate).
  destruct (k0 `mod` 4 =? 0) eqn:M0.
  2:{ split; [discriminate|].
      intros (_ & _ & _ & _ & [? | (k & [= <-] & D0 & _)]); [contradiction|].
      apply mod4_eqb in D0. congruence. }
  apply mod4_eqb in M0.
  destruct (last s1) as [k1|] eqn:L1.
  - split; [discriminate|].
    intros (_ & _ & _ & _ & [? | (k & _ & _ & ->)]); [contradiction | discriminate].
  - apply last_None in L1. split.
    + intros [= <-]. repeat split; auto. right. by exists k0.
    + intros (-> & _). reflexivity.
Qed.

Lemma check_matmul_like_raises_iff_witness :
  check_matmul_like (matmul_call [4; 8] "int8" [] "int8" [4] "int32") = Raise IndexError <->
  IndexError = IndexError /\ "int8" = "int8" /\ "int8" = "int8" /\
  ("int8", "int32") ∈ supported_dtypes /\
  ([4; 8] = [] \/ exists k0, last [4; 8] = Some k0 /\ (4 | k0) /\ @nil Z = []).
Proof.
  apply (check_matmul_like_raises_iff _ [4; 8] [] [4] "int8" "int8" "int32" IndexError);
    reflexivity.
Defined.

(** The alignment test short-circuits: once the first int8 operand has a
    trailing dimension that is not a multiple of 4, the call is rejected
    and the second operand's shape is not read, so even a second operand
    without dimensions gives [False] and not an error. *)
Theorem check_matmul_like_first_operand_decides
    (matched : Expr) (s0 s1 so : list Z) (od : string) (k0 : Z) :
  arg_type matched 0 = Ok (TensorType s0 "int8") ->
  arg_type matched 1 = Ok (TensorType s1 "int8") ->
  checked_type matched = Ok (TensorType so od) ->
  last s0 = Some k0 ->
  ~ (4 | k0) ->
  check_matmul_like matched = Ok false.
Proof.
  intros H0 H1 Hout L0 N0.
  rewrite (check_matmul_like_typed matched s0 s1 so "int8" "int8" od H0 H1 Hout).
  cbn [String.eqb Ascii.eqb Bool.eqb andb negb].
  destruct (negb (contains pair_eqb ("int8", od) supported_dtypes)); [reflexivity|].
  rewrite L0. destruct (k0 `mod` 4 =? 0) eqn:M0; [|reflexivity].
  apply mod4_eqb in M0. contradiction.
Qed.

Lemma check_matmul_like_first_operand_decides_witness :
  check_matmul_like (matmul_call [4; 5] "int8" [] "int8" [4] "int32") = Ok false.
Proof.
  apply (check_matmul_like_first_operand_decides _ [4; 5] [] [4] "int32" 5);
    try reflexivity.
  intros [q Hq]. lia.
Defined.

Lemma getitem_out_of_range {A : Type} (l : list A) (i : Z) :
  Z.of_nat (length l) <= i -> getitem l i = Raise IndexError.
Proof.
  intros H. unfold getitem.
  replace (i <? 0) with false by (symmetry; apply Z.ltb_ge; lia).
  replace (Z.of_nat (length l) <=? i) with true by (symmetry; apply Z.leb_le; lia).
  by rewrite orb_true_r.
Qed.

(** The predicate gives no verdict on an expression it cannot read two
    operands from: on anything that is not a call, and on a call with
    fewer than two arguments, it raises. *)
Theorem check_matmul_like_needs_two_operands (matched : Expr) :
  (forall a, args matched = Ok a -> (length a < 2)%nat) ->
  exists e, check_matmul_like matched = Raise e.
Proof.
  intros Hshort. unfold check_matmul_like, arg_type.
  destruct (args matched) as [a|e] eqn:Ha; [|by exists e].
  specialize (Hshort a eq_refl). cbn [bind].
  destruct a as [|x [|y rest]].
  - exists IndexError. reflexivity.
  - rewrite getitem_0. cbn [bind].
    destruct (checked_type x) as [t|e]; [|by exists e]. cbn [bind].
    destruct (dtype t) as [d|e]; [|by exists e]. cbn [bind].
    rewrite getitem_out_of_range by (cbn; lia). by eexists.
  - cbn in Hshort. lia.
Qed.

Lemma check_matmul_like_needs_two_operands_witness :
  exists e,
    check_matmul_like
      (Call (Op "nn.dense") [tensor_var "data" [8; 16] "float32"] ∅
         (Some (TensorType [8; 32] "float32"))) = Raise e.
Proof.
  apply (check_matmul_like_needs_two_operands
           (Call (Op "nn.dense") [tensor_var "data" [8; 16] "float32"] ∅
              (Some (TensorType [8; 32] "float32")))).
  intros a [= <-]. cbn. lia.
Defined.

(** The predicate does not turn a missing type into a rejection: when
    type inference has not populated the first operand, or has populated
    the first with a tensor type but not the second, the error of the
    [checked_type] read is what the predicate raises. *)
Theorem check_matmul_like_untyped_operand
    (o a0 a1 : Expr) (rest : list Expr) (call_attrs : gmap string AttrValue)
    (ty : option RType) (e : exn) :
  (checked_type a0 = Raise e ->
   check_matmul_like (Call o (a0 :: a1 :: rest) call_attrs ty) = Raise e) /\
  (forall s d, checked_type a0 = Ok (TensorType s d) ->
   checked_type a1 = Raise e ->
   check_matmul_like (Call o (a0 :: a1 :: rest) call_attrs ty) = Raise e).
Proof.
  unfold check_matmul_like, arg_type. cbn [args bind].
  rewrite getitem_0, getitem_1. cbn [bind]. split.
  - intros ->. reflexivity.
  - intros s d -> ->. reflexivity.
Qed.

Lemma check_matmul_like_untyped_operand_witness :
  check_matmul_like
    (Call (Op "nn.matmul") [Var "a" None; tensor_var "b" [16; 32] "float32"] ∅ None)
  = Raise ValueError /\
  check_matmul_like
    (Call (Op "nn.matmul") [tensor_var "a" [8; 16] "float32"; Var "b" None] ∅ None)
  = Raise ValueError.
Proof.
  split.
  - apply (proj1 (check_matmul_like_untyped_operand (Op "nn.matmul") (Var "a" None)
                    (tensor_var "b" [16; 32] "float32") [] ∅ None ValueError)).
    reflexivity.
  - apply (proj2 (check_matmul_like_untyped_operand (Op "nn.matmul")
                    (tensor_var "a" [8; 16] "float32") (Var "b" None) [] ∅ None
                    ValueError) [8; 16] "float32"); reflexivity.
Defined.

(** Of the operand shapes only the trailing dimensions count: two typed
    calls with the same operand data types, the same output data type
    and the same trailing dimensions get the same result, whatever their
    leading dimensions, ranks and output shapes are. *)
Theorem check_matmul_like_trailing_dims_only
    (m1 m2 : Expr) (s0 s1 so t0 t1 to : list Z) (d0 d1 od : string) :
  arg_type m1 0 = Ok (TensorType s0 d0) ->
  arg_type m1 1 = Ok (TensorType s1 d1) ->
  checked_type m1 = Ok (TensorType so od) ->
  arg_type m2 0 = Ok (TensorType t0 d0) ->
  arg_type m2 1 = Ok (TensorType t1 d1) ->
  checked_type m2 = Ok (TensorType to od) ->
  last s0 = last t0 ->
  last s1 = last t1 ->
  check_matmul_like m1 = check_matmul_like m2.
Proof.
  intros H0 H1 Hout G0 G1 Gout L0 L1.
  rewrite (check_matmul_like_typed m1 s0 s1 so d0 d1 od H0 H1 Hout).
  rewrite (check_matmul_like_typed m2 t0 t1 to d0 d1 od G0 G1 Gout).
  rewrite L0, L1. reflexivity.
Qed.

Lemma check_matmul_like_trailing_dims_only_witness :
  check_matmul_like (matmul_call [4; 8] "int8" [8; 12] "int8" [4; 12] "int32") =
  check_matmul_like (matmul_call [2; 3; 8] "int8" [12] "int8" [2; 3] "int32").
Proof.
  apply (check_matmul_like_trailing_dims_only _ _ [4; 8] [8; 12] [4; 12]
           [2; 3; 8] [12] [2; 3] "int8" "int8" "int32"); reflexivity.
Defined.

(** * Further properties of the lowering routines *)

Lemma getitem_short {A : Type} (l : list A) :
  (length l < 2)%nat -> getitem l 0 = Raise IndexError \/ getitem l 1 = Raise IndexError.
Proof.
  intros H. right. apply getitem_out_of_range. lia.
Qed.

(** With fewer than two inputs each of the three lowering routines
    raises [IndexError], whatever the call is; the inputs are read before
    the call's attributes and type. *)
Theorem lower_too_few_inputs (op_ : Expr) (inputs : list Tensor) :
  (length inputs < 2)%nat ->
  _lower_matmul op_ inputs = Raise IndexError /\
  _lower_batch_matmul op_ inputs = Raise IndexError /\
  _lower_dense op_ inputs = Raise IndexError.
Proof.
  intros H. unfold _lower_matmul, _lower_batch_matmul, _lower_dense.
  destruct inputs as [|lhs [|rhs rest]]; [by repeat split | | cbn in H; lia].
  rewrite getitem_0, getitem_out_of_range by (cbn; lia). by repeat split.
Qed.

Lemma lower_too_few_inputs_witness :
  _lower_matmul (Var "x" None) [placeholder [8; 16] "input_0" "float32"]
    = Raise IndexError /\
  _lower_batch_matmul (Var "x" None) [placeholder [8; 16] "input_0" "float32"]
    = Raise IndexError /\
  _lower_dense (Var "x" None) [placeholder [8; 16] "input_0" "float32"]
    = Raise IndexError.
Proof.
  apply (lower_too_few_inputs (Var "x" None) [placeholder [8; 16] "input_0" "float32"]).
  cbn. lia.
Defined.

(** A call that lacks [transpose_a] or [transpose_b] cannot be lowered by
    the matmul or batch_matmul routine: both raise and emit nothing.  The
    dense routine lowers the same call, since it reads no attribute. *)
Theorem lower_matmul_needs_transpose_attrs
    (o : Expr) (a : list Expr) (call_attrs : gmap string AttrValue)
    (s : list Z) (d : string) (lhs rhs : Tensor) (rest : list Tensor) :
  call_attrs !! "transpose_a" = None \/ call_attrs !! "transpose_b" = None ->
  (exists e, _lower_matmul (Call o a call_attrs (Some (TensorType s d)))
               (lhs :: rhs :: rest) = Raise e) /\
  (exists e, _lower_batch_matmul (Call o a call_attrs (Some (TensorType s d)))
               (lhs :: rhs :: rest) = Raise e) /\
  _lower_dense (Call o a call_attrs (Some (TensorType s d))) (lhs :: rhs :: rest) =
    Ok (cublas_matmul lhs rhs (ABool false) (ABool true) d).
Proof.
  intros H. unfold _lower_matmul, _lower_batch_matmul, _lower_dense.
  rewrite getitem_0, getitem_1. cbn [bind call_attr].
  unfold attr. split; [|split; [|reflexivity]].
  all: destruct (call_attrs !! "transpose_a") as [ta|]; [|by eexists];
    destruct H as [H | H]; [discriminate|]; rewrite H; by eexists.
Qed.

Lemma lower_matmul_needs_transpose_attrs_witness :
  (exists e, _lower_matmul (dense_call [8; 16] "float32" [32; 16] "float32"
                              [8; 32] "float32")
               [placeholder [8; 16] "input_0" "float32";
                placeholder [32; 16] "input_1" "float32"] = Raise e) /\
  (exists e, _lower_batch_matmul (dense_call [8; 16] "float32" [32; 16] "float32"
                              [8; 32] "float32")
               [placeholder [8; 16] "input_0" "float32";
                placeholder [32; 16] "input_1" "float32"] = Raise e) /\
  _lower_dense (dense_call [8; 16] "float32" [32; 16] "float32" [8; 32] "float32")
    [placeholder [8; 16] "input_0" "float32";
     placeholder [32; 16] "input_1" "float32"] =
    Ok (cublas_matmul (placeholder [8; 16] "input_0" "float32")
          (placeholder [32; 16] "input_1" "float32") (ABool false) (ABool true)
          "float32").
Proof.
  apply (lower_matmul_needs_transpose_attrs (Op "nn.dense")
           [tensor_var "data" [8; 16] "float32"; tensor_var "weight" [32; 16] "float32"]
           ∅ [8; 32] "float32"
           (placeholder [8; 16] "input_0" "float32")
           (placeholder [32; 16] "input_1" "float32") []).
  left. reflexivity.
Defined.

(** Dense lowering is matmul lowering at fixed flags: on a call whose
    [transpose_a] is [False] and whose [transpose_b] is [True] the matmul
    routine does exactly what the dense routine does, errors included. *)
Theorem lower_matmul_agrees_with_dense (op_ : Expr) (inputs : list Tensor) :
  call_attr op_ "transpose_a" = Ok (ABool false) ->
  call_attr op_ "transpose_b" = Ok (ABool true) ->
  _lower_matmul op_ inputs = _lower_dense op_ inputs.
Proof.
  intros Ha Hb. unfold _lower_matmul, _lower_dense. rewrite Ha, Hb.
  destruct (getitem inputs 0); [|reflexivity].
  destruct (getitem inputs 1); reflexivity.
Qed.

Lemma lower_matmul_agrees_with_dense_witness :
  _lower_matmul
    (Call (Op "nn.matmul") []
       (<["transpose_a" := ABool false]> (<["transpose_b" := ABool true]> ∅))
       (Some (TensorType [8; 32] "float32")))
    [placeholder [8; 16] "input_0" "float32"; placeholder [32; 16] "input_1" "float32"] =
  _lower_dense
    (Call (Op "nn.matmul") []
       (<["transpose_a" := ABool false]> (<["transpose_b" := ABool true]> ∅))
       (Some (TensorType [8; 32] "float32")))
    [placeholder [8; 16] "input_0" "float32"; placeholder [32; 16] "input_1" "float32"].
Proof.
  apply (lower_matmul_agrees_with_dense
           (Call (Op "nn.matmul") []
              (<["transpose_a" := ABool false]> (<["transpose_b" := ABool true]> ∅))
              (Some (TensorType [8; 32] "float32")))); vm_compute; reflexivity.
Defined.

(** * The lowering registry *)

(** Registration and lookup: a routine registered under a name is the one
    the dispatcher finds under that name; other names are not touched;
    registering a name again replaces the earlier routine. *)
Theorem lower_composite_registers
    (comp_name other : string) (f g : _LowerFunc)
    (LOWER_MAP : gmap string _LowerFunc) :
  dict_contains (_lower_composite comp_name f LOWER_MAP) (AStr comp_name) = true /\
  dict_getitem (_lower_composite comp_name f LOWER_MAP) (AStr comp_name) = Ok f /\
  (other <> comp_name ->
   dict_getitem (_lower_composite comp_name f LOWER_MAP) (AStr other) =
   dict_getitem LOWER_MAP (AStr other)) /\
  _lower_composite comp_name g (_lower_composite comp_name f LOWER_MAP) =
  _lower_composite comp_name g LOWER_MAP.
Proof.
  unfold _lower_composite, dict_contains, dict_getitem. repeat split.
  - apply bool_decide_eq_true. rewrite lookup_insert_eq. by eexists.
  - by rewrite lookup_insert_eq.
  - intros Hne. by rewrite lookup_insert_ne.
  - apply insert_insert_eq.
Qed.

Lemma lower_composite_registers_witness :
  dict_getitem (_lower_composite "cublas.dense" _lower_matmul _LOWER_MAP)
    (AStr "cublas.matmul") =
  dict_getitem _LOWER_MAP (AStr "cublas.matmul").
Proof.
  apply (proj1 (proj2 (proj2 (lower_composite_registers "cublas.dense" "cublas.matmul"
                                _lower_matmul _lower_dense _LOWER_MAP)))).
  discriminate.
Defined.

(** The registry the module builds dispatches each of the three composite
    names to its own routine and has no entry for anything else, a key
    that is not a string included. *)
Theorem LOWER_MAP_dispatch (key : AttrValue) (f : _LowerFunc) :
  dict_getitem _LOWER_MAP key = Ok f <->
  (key = AStr "cublas.matmul" /\ f = _lower_matmul) \/
  (key = AStr "cublas.batch_matmul" /\ f = _lower_batch_matmul) \/
  (key = AStr "cublas.dense" /\ f = _lower_dense).
Proof.
  unfold dict_getitem. split.
  - destruct key as [name| |]; try discriminate.
    unfold _LOWER_MAP, _lower_composite.
    destruct (decide (name = "cublas.dense")) as [->|N1].
    { rewrite lookup_insert_eq. intros [= <-]. auto. }
    rewrite lookup_insert_ne by done.
    destruct (decide (name = "cublas.batch_matmul")) as [->|N2].
    { rewrite lookup_insert_eq. intros [= <-]. auto. }
    rewrite lookup_insert_ne by done.
    destruct (decide (name = "cublas.matmul")) as [->|N3].
    { rewrite lookup_insert_eq. intros [= <-]. auto. }
    rewrite lookup_insert_ne by done. rewrite lookup_empty. discriminate.
  - intros [[-> ->] | [[-> ->] | [-> ->]]]; reflexivity.
Qed.

(** The registry and the pattern table name the same composites: a name
    has a lowering routine exactly when a pattern of the table carries
    it, so a composite cut out by the table never fails the registry
    assertion of the dispatcher. *)
Theorem LOWER_MAP_covers_pattern_table (name : string) :
  dict_contains _LOWER_MAP (AStr name) = true <-> name ∈ pattern_table.*1.*1.
Proof.
  unfold dict_contains. rewrite bool_decide_eq_true.
  unfold _LOWER_MAP, _lower_composite, pattern_table. cbn [fmap list_fmap fst].
  rewrite !lookup_insert_is_Some, !elem_of_cons, elem_of_nil.
  pose proof (lookup_empty_is_Some (M := gmap string) (A := _LowerFunc) name) as Hnone.
  split.
  - intros [<- | [_ [<- | [_ [<- | [_ Hsome]]]]]]; auto; contradiction.
  - intros [-> | [-> | [-> | []]]].
    + right. split; [discriminate|]. right. split; [discriminate|]. by left.
    + right. split; [discriminate|]. by left.
    + by left.
Qed.

(** * Further properties of the dispatcher *)

Lemma placeholders_at (i : nat) (ps : list Expr) (inputs : list Tensor) :
  placeholders i ps = Ok inputs ->
  length inputs = length ps /\
  forall (k : nat) (p : Expr), ps !! k = Some p ->
    exists s d, checked_type p = Ok (TensorType s d) /\
      inputs !! k = Some (placeholder s ("input_" +:+ pretty (i + k)%nat) d).
Proof.
  revert i inputs. induction ps as [|p ps IH]; intros i inputs; cbn [placeholders].
  - intros [= <-]. split; [reflexivity|]. intros k p Hk. discriminate.
  - destruct (checked_type p) as [[s d| |]|] eqn:Hp; cbn [bind shape dtype];
      try discriminate.
    destruct (placeholders (S i) ps) as [more|] eqn:Hmore; cbn [bind];
      [|discriminate].
    intros [= <-]. destruct (IH (S i) more Hmore) as [Hlen Hat]. split.
    + cbn [length]. by rewrite Hlen.
    + intros [|k] q Hq; cbn in Hq.
      * injection Hq as <-. exists s, d. by rewrite Nat.add_0_r.
      * destruct (Hat k q Hq) as (s' & d' & Hq' & Hin). exists s', d'.
        split; [exact Hq'|]. cbn. by replace (i + S k)%nat with (S i + k)%nat by lia.
Qed.

(** The placeholders follow the parameters: as many placeholders as
    parameters, and the one at position [k] has the shape and data type
    of the parameter at position [k] and the name [input_(i+k)], where
    [i] is the index the loop starts at. *)
Theorem placeholders_follow_params (i : nat) (ps : list Expr) (inputs : list Tensor) :
  placeholders i ps = Ok inputs ->
  length inputs = length ps /\
  forall (k : nat) (p : Expr), ps !! k = Some p ->
    exists s d, checked_type p = Ok (TensorType s d) /\
      inputs !! k = Some (placeholder s ("input_" +:+ pretty (i + k)%nat) d).
Proof.
  intros H. split.
  - exact (proj1 (placeholders_at i ps inputs H)).
  - intros k p Hk. exact (proj2 (placeholders_at i ps inputs H) k p Hk).
Qed.

Lemma placeholders_follow_params_witness :
  length [placeholder [8; 16] "input_0" "float32"; placeholder [32; 16] "input_1" "int8"] =
  length [tensor_var "x" [8; 16] "float32"; tensor_var "w" [32; 16] "int8"] /\
  forall (k : nat) (p : Expr),
    [tensor_var "x" [8; 16] "float32"; tensor_var "w" [32; 16] "int8"] !! k = Some p ->
    exists s d, checked_type p = Ok (TensorType s d) /\
      [placeholder [8; 16] "input_0" "float32"; placeholder [32; 16] "input_1" "int8"] !! k
      = Some (placeholder s ("input_" +:+ pretty (0 + k)%nat) d).
Proof.
  apply (placeholders_follow_params 0
           [tensor_var "x" [8; 16] "float32"; tensor_var "w" [32; 16] "int8"]).
  vm_compute. reflexivity.
Defined.

(** The loop over the parameters succeeds exactly when every parameter
    has a populated tensor type; one parameter without it makes the whole
    loop raise. *)
Theorem placeholders_succeed_iff (i : nat) (ps : list Expr) :
  (exists inputs, placeholders i ps = Ok inputs) <->
  Forall (fun p => exists s d, checked_type p = Ok (TensorType s d)) ps.
Proof.
  revert i. induction ps as [|p ps IH]; intros i; cbn [placeholders].
  - split; [constructor | by eexists].
  - split.
    + intros [inputs H].
      destruct (checked_type p) as [[s d| |]|] eqn:Hp; cbn [bind shape dtype] in H;
        try discriminate.
      destruct (placeholders (S i) ps) as [more|] eqn:Hmore; [|discriminate].
      constructor; [by exists s, d|]. apply (IH (S i)). by exists more.
    + intros H. inversion H as [|? ? (s & d & Hp) Hrest]; subst.
      apply (IH (S i)) in Hrest as [more Hmore].
      rewrite Hp. cbn [bind shape dtype]. rewrite Hmore. by eexists.
Qed.

(** The placeholders of one kernel have pairwise distinct names. *)
Theorem placeholders_names_distinct (i : nat) (ps : list Expr) (inputs : list Tensor)
    (j k : nat) (sj sk : list Z) (nm dj dk : string) :
  placeholders i ps = Ok inputs ->
  inputs !! j = Some (placeholder sj nm dj) ->
  inputs !! k = Some (placeholder sk nm dk) ->
  j = k.
Proof.
  intros H Hj Hk. destruct (placeholders_at i ps inputs H) as [Hlen Hat].
  assert (Hname : forall (n : nat) s d, inputs !! n = Some (placeholder s nm d) ->
            nm = "input_" +:+ pretty (i + n)%nat).
  { intros n s d Hn.
    destruct (lookup_lt_is_Some_2 ps n) as [p Hp].
    { rewrite <- Hlen. by apply lookup_lt_Some in Hn. }
    destruct (Hat n p Hp) as (s' & d' & _ & Hin). rewrite Hn in Hin.
    by injection Hin as _ -> _. }
  pose proof (Hname j sj dj Hj) as Ej. pose proof (Hname k sk dk Hk) as Ek.
  rewrite Ej in Ek. apply (inj (String.append "input_")) in Ek.
  apply (inj pretty) in Ek. lia.
Qed.

Lemma placeholders_names_distinct_witness : 1%nat = 1%nat.
Proof.
  apply (placeholders_names_distinct 0
           [tensor_var "x" [8; 16] "float32"; tensor_var "w" [32; 16] "float32"]
           [placeholder [8; 16] "input_0" "float32";
            placeholder [32; 16] "input_1" "float32"]
           1 1 [32; 16] [32; 16] "input_1" "float32" "float32");
    vm_compute; reflexivity.
Defined.

(** The dispatcher reaches the lowering routine exactly on a function
    whose body is a call of a function with a call as body, where the
    partition has a [global_symbol], the composite's ["Composite"] tag is
    in the registry and every parameter of the composite is tensor-typed.
    The job it hands on is then fixed: the kernel name is the global
    symbol, the target is cuda, the operator call is the body of the
    composite, and the inputs are the placeholders of the composite's
    parameters, not the partition's. *)
Theorem relay_to_runtime_checks_ok_iff
    (LOWER_MAP : gmap string _LowerFunc) (partition : Expr) (job : LoweringJob) :
  relay_to_runtime_checks LOWER_MAP partition = Ok job <->
  exists ps oargs oattrs oty cps cattrs cty pattrs pty gs,
    partition =
      Function ps (Call (Function cps (job_op job) cattrs cty) oargs oattrs oty)
        pattrs pty /\
    is_Call (job_op job) = true /\
    pattrs !! "global_symbol" = Some gs /\
    cattrs !! "Composite" = Some (job_comp_name job) /\
    dict_contains LOWER_MAP (job_comp_name job) = true /\
    placeholders 0 cps = Ok (job_inputs job) /\
    job_global_name job = str gs /\
    job_target job = target.cuda.
Proof.
  unfold relay_to_runtime_checks. split.
  - destruct partition as [| | | | |ps b pattrs pty]; try discriminate.
    destruct b as [| | | |o oargs oattrs oty|]; try discriminate.
    destruct o as [| | | | |cps cb cattrs cty]; try discriminate.
    cbn [assert is_Function is_Call body op attrs params bind].
    unfold attr.
    destruct (pattrs !! "global_symbol") as [gs|] eqn:Hgs; [|discriminate].
    cbn [bind].
    destruct (cattrs !! "Composite") as [tag|] eqn:Htag; [|discriminate].
    cbn [bind].
    destruct (dict_contains LOWER_MAP tag) eqn:Hreg; [|discriminate].
    cbn [assert bind].
    destruct (is_Call cb) eqn:Hcall; [|discriminate]. cbn [assert bind].
    destruct (placeholders 0 cps) as [inputs|] eqn:Hin; [|discriminate].
    cbn [bind]. intros [= <-]. cbn.
    by exists ps, oargs, oattrs, oty, cps, cattrs, cty, pattrs, pty, gs.
  - intros (ps & oargs & oattrs & oty & cps & cattrs & cty & pattrs & pty & gs &
            -> & Hcall & Hgs & Htag & Hreg & Hin & Hname & Htgt).
    destruct job as [name tgt tag cb inputs]. cbn in *. subst.
    unfold attr. rewrite Hgs. cbn [bind]. rewrite Htag. cbn [bind].
    rewrite Hreg. cbn [assert bind]. rewrite Hcall. cbn [assert bind].
    rewrite Hin. reflexivity.
Qed.

Lemma relay_to_runtime_dispatch
    (LOWER_MAP : gmap string _LowerFunc) {PrimFunc RuntimeModule : Type}
    (create_prim_func : list Tensor -> result PrimFunc)
    (build : PrimFunc -> target.Target -> string -> result RuntimeModule)
    (ps oargs cps cargs : list Expr) (oattrs cattrs pattrs call_attrs : gmap string AttrValue)
    (oty cty pty opty : option RType) (o : Expr)
    (gs : AttrValue) (tag : string) (lower : _LowerFunc) (inputs : list Tensor) :
  pattrs !! "global_symbol" = Some gs ->
  cattrs !! "Composite" = Some (AStr tag) ->
  LOWER_MAP !! tag = Some lower ->
  placeholders 0 cps = Ok inputs ->
  relay_to_runtime LOWER_MAP create_prim_func build
    (Function ps
       (Call (Function cps (Call o cargs call_attrs opty) cattrs cty) oargs oattrs oty)
       pattrs pty) =
  let* output := lower (Call o cargs call_attrs opty) inputs in
  let* prim_func := create_prim_func (app inputs [output]) in
  build prim_func target.cuda (str gs).
Proof.
  intros Hgs Htag Hreg Hin.
  unfold relay_to_runtime, relay_to_runtime_checks.
  cbn [assert is_Function is_Call body op attrs params bind].
  unfold attr. rewrite Hgs. cbn [bind]. rewrite Htag. cbn [bind].
  unfold dict_contains. rewrite Hreg.
  rewrite (bool_decide_eq_true_2 _ (mk_is_Some _ _ eq_refl)). cbn [assert bind].
  rewrite Hin. cbn [bind].
  unfold relay_to_runtime_lower, dict_getitem. cbn. rewrite Hreg. reflexivity.
Qed.

(** What a successful dispatch builds: with the registry holding [lower]
    for the composite's tag, the kernel is built from the placeholders
    followed by the output of [lower] on the composite's body, for the
    cuda target, under the partition's global symbol; an error of
    [lower] or of the builder is the dispatcher's error. *)
Theorem relay_to_runtime_builds
    (LOWER_MAP : gmap string _LowerFunc) {PrimFunc RuntimeModule : Type}
    (create_prim_func : list Tensor -> result PrimFunc)
    (build : PrimFunc -> target.Target -> string -> result RuntimeModule)
    (ps oargs cps cargs : list Expr) (oattrs cattrs pattrs call_attrs : gmap string AttrValue)
    (oty cty pty opty : option RType) (o : Expr)
    (gs : AttrValue) (tag : string) (lower : _LowerFunc) (inputs : list Tensor) :
  pattrs !! "global_symbol" = Some gs ->
  cattrs !! "Composite" = Some (AStr tag) ->
  LOWER_MAP !! tag = Some lower ->
  placeholders 0 cps = Ok inputs ->
  relay_to_runtime LOWER_MAP create_prim_func build
    (Function ps
       (Call (Function cps (Call o cargs call_attrs opty) cattrs cty) oargs oattrs oty)
       pattrs pty) =
  let* output := lower (Call o cargs call_attrs opty) inputs in
  let* prim_func := create_prim_func (app inputs [output]) in
  build prim_func target.cuda (str gs).
Proof.
  intros Hgs Htag Hreg Hin.
  rewrite (relay_to_runtime_dispatch LOWER_MAP create_prim_func build
             ps oargs cps cargs oattrs cattrs pattrs call_attrs oty cty pty opty o gs
             tag lower inputs Hgs Htag Hreg Hin).
  destruct (lower (Call o cargs call_attrs opty) inputs); reflexivity.
Qed.

Lemma relay_to_runtime_builds_witness :
  relay_to_runtime _LOWER_MAP Ok recording_build (partition_of "cublas.dense") =
  let* output :=
    _lower_dense (dense_call [8; 16] "float32" [32; 16] "float32" [8; 32] "float32")
      [placeholder [8; 16] "input_0" "float32"; placeholder [32; 16] "input_1" "float32"] in
  let* prim_func :=
    Ok (app [placeholder [8; 16] "input_0" "float32";
             placeholder [32; 16] "input_1" "float32"] [output]) in
  recording_build prim_func target.cuda (str (AStr "tvmgen_default_cublas_main_0")).
Proof.
  unfold partition_of, composite_function, dense_call.
  apply (relay_to_runtime_builds _LOWER_MAP Ok recording_build) with (tag := "cublas.dense");
    vm_compute; reflexivity.
Defined.

(** End to end for the three registered composites, on the registry the
    module builds: with two or more tensor-typed composite parameters
    and a tensor-typed operator call, a dense composite is built as the
    external matmul on the first two placeholders with flags
    [False]/[True]; a matmul or batch_matmul composite as the matching
    routine with the call's own transpose attributes. *)
Theorem relay_to_runtime_builtin_kernels
    {PrimFunc RuntimeModule : Type}
    (create_prim_func : list Tensor -> result PrimFunc)
    (build : PrimFunc -> target.Target -> string -> result RuntimeModule)
    (ps oargs cps cargs : list Expr) (oattrs cattrs pattrs call_attrs : gmap string AttrValue)
    (oty cty pty : option RType) (o : Expr) (so : list Z) (od : string)
    (gs : AttrValue) (tag : string) (i0 i1 : Tensor) (rest : list Tensor) :
  pattrs !! "global_symbol" = Some gs ->
  cattrs !! "Composite" = Some (AStr tag) ->
  placeholders 0 cps = Ok (i0 :: i1 :: rest) ->
  let run :=
    relay_to_runtime _LOWER_MAP create_prim_func build
      (Function ps
         (Call (Function cps (Call o cargs call_attrs (Some (TensorType so od)))
                  cattrs cty) oargs oattrs oty)
         pattrs pty) in
  let kernel (output : Tensor) :=
    let* prim_func := create_prim_func (app (i0 :: i1 :: rest) [output]) in
    build prim_func target.cuda (str gs) in
  (tag = "cublas.dense" ->
   run = kernel (cublas_matmul i0 i1 (ABool false) (ABool true) od)) /\
  (forall ta tb,
     call_attrs !! "transpose_a" = Some ta ->
     call_attrs !! "transpose_b" = Some tb ->
     (tag = "cublas.matmul" -> run = kernel (cublas_matmul i0 i1 ta tb od)) /\
     (tag = "cublas.batch_matmul" -> run = kernel (cublas_batch_matmul i0 i1 ta tb od))).
Proof.
  intros Hgs Htag Hin run kernel. subst run kernel. cbv beta.
  split; [|intros ta tb Ha Hb; split]; intros ->.
  - rewrite (relay_to_runtime_dispatch _LOWER_MAP create_prim_func build
               ps oargs cps cargs oattrs cattrs pattrs call_attrs oty cty pty _ o gs
               "cublas.dense" _lower_dense (i0 :: i1 :: rest) Hgs Htag eq_refl Hin).
    unfold _lower_dense. rewrite getitem_0, getitem_1. reflexivity.
  - rewrite (relay_to_runtime_dispatch _LOWER_MAP create_prim_func build
               ps oargs cps cargs oattrs cattrs pattrs call_attrs oty cty pty _ o gs
               "cublas.matmul" _lower_matmul (i0 :: i1 :: rest) Hgs Htag eq_refl Hin).
    unfold _lower_matmul. rewrite getitem_0, getitem_1. cbn [bind call_attr].
    unfold attr. rewrite Ha, Hb. reflexivity.
  - rewrite (relay_to_runtime_dispatch _LOWER_MAP create_prim_func build
               ps oargs cps cargs oattrs cattrs pattrs call_attrs oty cty pty _ o gs
               "cublas.batch_matmul" _lower_batch_matmul (i0 :: i1 :: rest)
               Hgs Htag eq_refl Hin).
    unfold _lower_batch_matmul. rewrite getitem_0, getitem_1. cbn [bind call_attr].
    unfold attr. rewrite Ha, Hb. reflexivity.
Qed.

Lemma relay_to_runtime_builtin_kernels_witness :
  relay_to_runtime _LOWER_MAP Ok recording_build (partition_of "cublas.dense") =
  Ok ([ placeholder [8; 16] "input_0" "float32";
        placeholder [32; 16] "input_1" "float32";
        cublas_matmul (placeholder [8; 16] "input_0" "float32")
          (placeholder [32; 16] "input_1" "float32")
          (ABool false) (ABool true) "float32" ],
      target.cuda, "tvmgen_default_cublas_main_0").
Proof.
  edestruct (relay_to_runtime_builtin_kernels Ok recording_build
               [tensor_var "x" [8; 16] "float32"; tensor_var "w" [32; 16] "float32"]
               [tensor_var "x" [8; 16] "float32"; tensor_var "w" [32; 16] "float32"]
               [tensor_var "p0" [8; 16] "float32"; tensor_var "p1" [32; 16] "float32"]
               [tensor_var "data" [8; 16] "float32"; tensor_var "weight" [32; 16] "float32"]
               ∅ (<["Composite" := AStr "cublas.dense"]> ∅)
               (<["global_symbol" := AStr "tvmgen_default_cublas_main_0"]> ∅) ∅
               (Some (TensorType [8; 32] "float32")) None None (Op "nn.dense")
               [8; 32] "float32" (AStr "tvmgen_default_cublas_main_0") "cublas.dense"
               (placeholder [8; 16] "input_0" "float32")
               (placeholder [32; 16] "input_1" "float32") [])
    as [Hdense _]; [vm_compute; reflexivity.. |].
  exact (Hdense eq_refl).
Defined.

(** The structural precondition is not all the dispatcher needs: a
    partition without a [global_symbol] attribute makes it raise,
    whatever its body and the registry are. *)
Theorem relay_to_runtime_needs_global_symbol
    (LOWER_MAP : gmap string _LowerFunc) {PrimFunc RuntimeModule : Type}
    (create_prim_func : list Tensor -> result PrimFunc)
    (build : PrimFunc -> target.Target -> string -> result RuntimeModule)
    (ps : list Expr) (b : Expr) (pattrs : gmap string AttrValue) (pty : option RType) :
  pattrs !! "global_symbol" = None ->
  exists e,
    relay_to_runtime LOWER_MAP create_prim_func build (Function ps b pattrs pty) = Raise e.
Proof.
  intros Hgs. unfold relay_to_runtime, relay_to_runtime_checks.
  cbn [assert is_Function body bind].
  destruct b as [| | | |o oargs oattrs oty|]; try by eexists.
  destruct o as [| | | | |cps cb cattrs cty]; try by eexists.
  cbn [assert is_Function is_Call op attrs bind]. unfold attr at 1.
  rewrite Hgs. by eexists.
Qed.

Lemma relay_to_runtime_needs_global_symbol_witness :
  structural_precondition _LOWER_MAP
    (Function [] (Call (composite_function "cublas.dense") [] ∅ None) ∅ None) = true /\
  exists e,
    relay_to_runtime _LOWER_MAP Ok recording_build
      (Function [] (Call (composite_function "cublas.dense") [] ∅ None) ∅ None) = Raise e.
Proof.
  split; [vm_compute; reflexivity|].
  apply (relay_to_runtime_needs_global_symbol _LOWER_MAP Ok recording_build).
  reflexivity.
Defined.
